(** * The long-barrel ideal-geometry configuration fragment

    A shallow embedding of [trunk/xml/longbarrel_cmsIdealGeometryXML_cff.py]:
    the text of the file, a tokenizer and a parser for the fragment of Python
    the file is written in, the abstract syntax the file parses to, and an
    evaluator of that syntax over an explicit module table and object heap.
    The properties of the list assigned to
    [XMLIdealGeometryESSource.geomXMLFiles] are stated on these. *)

From Stdlib Require Import Ascii String List Arith Lia.
From stdpp Require Import base option list strings gmap.

#[local] Set Warnings "-register-all".


(** ** The file as it is stored *)

Module Source.

(** The physical lines of the file, without their line terminators.  The last
    line has none in the file either. *)
Definition lines : list string :=
  [
    "import FWCore.ParameterSet.Config as cms";
    "";
    "from Geometry.CMSCommonData.cmsIdealGeometryXML_cfi import *";
    "";
    "XMLIdealGeometryESSource.geomXMLFiles = cms.vstring(";
    "    'SLHCUpgradeSimulations/Geometry/data/longbarrel/materials.xml', ";
    "        'Geometry/CMSCommonData/data/rotations.xml', ";
    "        'Geometry/CMSCommonData/data/normal/cmsextent.xml', ";
    "        'Geometry/CMSCommonData/data/cms.xml', ";
    "        'Geometry/CMSCommonData/data/cmsMother.xml', ";
    "        'Geometry/CMSCommonData/data/cmsTracker.xml', ";
    "        'Geometry/CMSCommonData/data/caloBase.xml', ";
    "        'Geometry/CMSCommonData/data/cmsCalo.xml', ";
    "        'Geometry/CMSCommonData/data/muonBase.xml', ";
    "        'Geometry/CMSCommonData/data/cmsMuon.xml', ";
    "        'Geometry/CMSCommonData/data/mgnt.xml', ";
    "        'Geometry/CMSCommonData/data/beampipe.xml', ";
    "        'Geometry/CMSCommonData/data/cmsBeam.xml', ";
    "        'Geometry/CMSCommonData/data/muonMB.xml', ";
    "        'Geometry/CMSCommonData/data/muonMagnet.xml', ";
    "        'Geometry/TrackerCommonData/data/pixfwdMaterials.xml', ";
    "        'Geometry/TrackerCommonData/data/pixfwdCommon.xml', ";
    "        'Geometry/TrackerCommonData/data/pixfwdPlaq.xml', ";
    "        'Geometry/TrackerCommonData/data/pixfwdPlaq1x2.xml', ";
    "        'Geometry/TrackerCommonData/data/pixfwdPlaq1x5.xml', ";
    "        'Geometry/TrackerCommonData/data/pixfwdPlaq2x3.xml', ";
    "        'Geometry/TrackerCommonData/data/pixfwdPlaq2x4.xml', ";
    "        'Geometry/TrackerCommonData/data/pixfwdPlaq2x5.xml', ";
    "        'Geometry/TrackerCommonData/data/pixfwdPanelBase.xml', ";
    "        'Geometry/TrackerCommonData/data/pixfwdPanel.xml', ";
    "        'Geometry/TrackerCommonData/data/pixfwdBlade.xml', ";
    "        'Geometry/TrackerCommonData/data/pixfwdNipple.xml', ";
    "        'Geometry/TrackerCommonData/data/pixfwdDisk.xml', ";
    "        'Geometry/TrackerCommonData/data/pixfwdCylinder.xml', ";
    "        'SLHCUpgradeSimulations/Geometry/data/longbarrel/pixfwd.xml', ";
    "        'Geometry/TrackerCommonData/data/pixbarmaterial.xml', ";
    "        'Geometry/TrackerCommonData/data/pixbarladder.xml', ";
    "        'Geometry/TrackerCommonData/data/pixbarladderfull.xml', ";
    "        'Geometry/TrackerCommonData/data/pixbarladderhalf.xml', ";
    "        'Geometry/TrackerCommonData/data/pixbarlayer.xml', ";
    "        'SLHCUpgradeSimulations/Geometry/data/longbarrel/pixbarlayer0.xml',";
    "        'SLHCUpgradeSimulations/Geometry/data/longbarrel/pixbarlayer1.xml',";
    "        'SLHCUpgradeSimulations/Geometry/data/longbarrel/pixbarlayer2.xml',";
    "        'SLHCUpgradeSimulations/Geometry/data/longbarrel/pixbarlayer3.xml',";
    "        'SLHCUpgradeSimulations/Geometry/data/longbarrel/pixbar.xml',";
    "        'SLHCUpgradeSimulations/Geometry/data/longbarrel/newtracker.xml', ";
    "        'Geometry/TrackerCommonData/data/trackermaterial.xml', ";
    "        'Geometry/TrackerCommonData/data/tracker.xml', ";
    "        'Geometry/TrackerCommonData/data/trackerpixbar.xml', ";
    "        'Geometry/TrackerCommonData/data/trackerpixfwd.xml', ";
    "        'Geometry/TrackerCommonData/data/trackerother.xml', ";
    "        'Geometry/EcalCommonData/data/eregalgo.xml', ";
    "        'Geometry/EcalCommonData/data/ebalgo.xml', ";
    "        'Geometry/EcalCommonData/data/ebcon.xml', ";
    "        'Geometry/EcalCommonData/data/ebrot.xml', ";
    "        'Geometry/EcalCommonData/data/eecon.xml', ";
    "        'Geometry/EcalCommonData/data/eefixed.xml', ";
    "        'Geometry/EcalCommonData/data/eehier.xml', ";
    "        'Geometry/EcalCommonData/data/eealgo.xml', ";
    "        'Geometry/EcalCommonData/data/escon.xml', ";
    "        'Geometry/EcalCommonData/data/esalgo.xml', ";
    "        'Geometry/EcalCommonData/data/eeF.xml', ";
    "        'Geometry/EcalCommonData/data/eeB.xml', ";
    "        'Geometry/HcalCommonData/data/hcalrotations.xml', ";
    "        'Geometry/HcalCommonData/data/hcalalgo.xml', ";
    "        'Geometry/HcalCommonData/data/hcalbarrelalgo.xml', ";
    "        'Geometry/HcalCommonData/data/hcalendcapalgo.xml', ";
    "        'Geometry/HcalCommonData/data/hcalouteralgo.xml', ";
    "        'Geometry/HcalCommonData/data/hcalforwardalgo.xml', ";
    "        'Geometry/HcalCommonData/data/hcalforwardfibre.xml', ";
    "        'Geometry/HcalCommonData/data/hcalforwardmaterial.xml', ";
    "        'Geometry/MuonCommonData/data/mbCommon.xml', ";
    "        'Geometry/MuonCommonData/data/mb1.xml', ";
    "        'Geometry/MuonCommonData/data/mb2.xml', ";
    "        'Geometry/MuonCommonData/data/mb3.xml', ";
    "        'Geometry/MuonCommonData/data/mb4.xml', ";
    "        'Geometry/MuonCommonData/data/muonYoke.xml', ";
    "        'Geometry/MuonCommonData/data/mf.xml', ";
    "        'Geometry/ForwardCommonData/data/forward.xml', ";
    "        'Geometry/ForwardCommonData/data/forwardshield.xml', ";
    "        'Geometry/ForwardCommonData/data/brmrotations.xml', ";
    "        'Geometry/ForwardCommonData/data/brm.xml', ";
    "        'Geometry/ForwardCommonData/data/totemMaterials.xml', ";
    "        'Geometry/ForwardCommonData/data/totemRotations.xml', ";
    "        'Geometry/ForwardCommonData/data/totemt1.xml', ";
    "        'Geometry/ForwardCommonData/data/totemt2.xml', ";
    "        'Geometry/ForwardCommonData/data/ionpump.xml', ";
    "        'Geometry/MuonCommonData/data/muonNumbering.xml', ";
    "        'SLHCUpgradeSimulations/Geometry/data/longbarrel/trackerStructureTopology.xml',";
    "        'SLHCUpgradeSimulations/Geometry/data/longbarrel/trackersens.xml',";
    "        'SLHCUpgradeSimulations/Geometry/data/longbarrel/trackerRecoMaterial.xml',";
    "        'Geometry/EcalSimData/data/ecalsens.xml', ";
    "        'Geometry/HcalCommonData/data/hcalsens.xml', ";
    "        'Geometry/HcalSimData/data/CaloUtil.xml', ";
    "        'Geometry/MuonSimData/data/muonSens.xml', ";
    "        'Geometry/DTGeometryBuilder/data/dtSpecsFilter.xml', ";
    "        'Geometry/CSCGeometryBuilder/data/cscSpecsFilter.xml', ";
    "        'Geometry/CSCGeometryBuilder/data/cscSpecs.xml', ";
    "        'Geometry/RPCGeometryBuilder/data/RPCSpecs.xml', ";
    "        'Geometry/ForwardCommonData/data/brmsens.xml', ";
    "        'Geometry/HcalSimData/data/HcalProdCuts.xml', ";
    "        'Geometry/EcalSimData/data/EcalProdCuts.xml', ";
    "        'SLHCUpgradeSimulations/Geometry/data/longbarrel/trackerProdCuts.xml',";
    "        'Geometry/TrackerSimData/data/trackerProdCutsBEAM.xml', ";
    "        'Geometry/MuonSimData/data/muonProdCuts.xml', ";
    "        'Geometry/CMSCommonData/data/FieldParameters.xml'";
    ")"
  ].

(** 1-based line numbers, as an editor shows them. *)
Definition numbered : list (nat * string) :=
  zip (seq 1 (length lines)) lines.

End Source.

(** ** Tokens

    The fragment of Python's lexical structure that the file uses: names
    (keywords are names at this level, as in Python's own tokenizer),
    single-quoted string literals without escape sequences, the delimiters
    [. ( ) , = *], comments, and the rule that a physical line ends a logical
    line only outside parentheses. *)

Module Lexer.

Inductive token : Type :=
  | NAME (id : string)
  | STRING (s : string)
  | OP (c : ascii)
  | NEWLINE.

Definition token_eqb (t u : token) : bool :=
  match t, u with
  | NAME a, NAME b => String.eqb a b
  | STRING a, STRING b => String.eqb a b
  | OP a, OP b => Ascii.eqb a b
  | NEWLINE, NEWLINE => true
  | _, _ => false
  end.

Definition code (c : ascii) : nat := nat_of_ascii c.

Definition is_space (c : ascii) : bool :=
  (code c =? 32) || (code c =? 9) || (code c =? 12).

Definition is_letter (c : ascii) : bool :=
  ((65 <=? code c) && (code c <=? 90)) ||
  ((97 <=? code c) && (code c <=? 122)) ||
  (code c =? 95).

Definition is_digit (c : ascii) : bool :=
  (48 <=? code c) && (code c <=? 57).

Definition is_delimiter (c : ascii) : bool :=
  existsb (Ascii.eqb c) ["."; ","; "="; "*"]%char.

(** What the scanner is in the middle of; accumulated characters are kept
    most recent first. *)
Inductive mode : Type :=
  | Code
  | InName (seen : list ascii)
  | InString (seen : list ascii)
  | Comment.

Definition text_of (seen : list ascii) : string :=
  string_of_list_ascii (rev seen).

(** Scanner state between two characters: the mode, the depth of open
    parentheses, and the tokens produced so far (most recent first), each with
    the number of the line it starts on. *)
Record scanner : Type := Scanner {
  sc_mode : mode;
  sc_depth : nat;
  sc_out : list (nat * token)
}.

(** One character met outside a name, a literal and a comment. *)
Definition code_char (ln : nat) (c : ascii) (depth : nat)
    (out : list (nat * token)) : option scanner :=
  if is_space c then Some (Scanner Code depth out)
  else if Ascii.eqb c "#" then Some (Scanner Comment depth out)
  else if Ascii.eqb c "'" then Some (Scanner (InString []) depth out)
  else if is_letter c then Some (Scanner (InName [c]) depth out)
  else if Ascii.eqb c "(" then Some (Scanner Code (S depth) ((ln, OP c) :: out))
  else if Ascii.eqb c ")" then
    match depth with
    | O => None
    | S d => Some (Scanner Code d ((ln, OP c) :: out))
    end
  else if is_delimiter c then Some (Scanner Code depth ((ln, OP c) :: out))
  else None.

Definition scan_char (ln : nat) (c : ascii) (st : scanner) : option scanner :=
  let '(Scanner m depth out) := st in
  match m with
  | Code => code_char ln c depth out
  | Comment => Some st
  | InName seen =>
      if is_letter c || is_digit c then Some (Scanner (InName (c :: seen)) depth out)
      else code_char ln c depth ((ln, NAME (text_of seen)) :: out)
  | InString seen =>
      if Ascii.eqb c "'" then
        Some (Scanner Code depth ((ln, STRING (text_of seen)) :: out))
      else if Ascii.eqb c "\" then None
      else Some (Scanner (InString (c :: seen)) depth out)
  end.

Fixpoint scan_chars (ln : nat) (s : string) (st : scanner) : option scanner :=
  match s with
  | EmptyString => Some st
  | String c rest =>
      match scan_char ln c st with
      | Some st' => scan_chars ln rest st'
      | None => None
      end
  end.

(** The end of a physical line: a literal may not run over it, a name and a
    comment end there, and a NEWLINE token is produced when no parenthesis is
    open and the logical line holds a token. *)
Definition end_of_line (ln : nat) (st : scanner) : option scanner :=
  let '(Scanner m depth out) := st in
  match m with
  | InString _ => None
  | _ =>
      let out1 :=
        match m with
        | InName seen => (ln, NAME (text_of seen)) :: out
        | _ => out
        end in
      let out2 :=
        match depth, out1 with
        | O, (_, NEWLINE) :: _ => out1
        | O, _ :: _ => (ln, NEWLINE) :: out1
        | _, _ => out1
        end in
      Some (Scanner Code depth out2)
  end.

Definition scan_line (st : scanner) (l : nat * string) : option scanner :=
  match scan_chars (fst l) (snd l) st with
  | Some st' => end_of_line (fst l) st'
  | None => None
  end.

Fixpoint scan_lines (ls : list (nat * string)) (st : scanner) : option scanner :=
  match ls with
  | [] => Some st
  | l :: rest =>
      match scan_line st l with
      | Some st' => scan_lines rest st'
      | None => None
      end
  end.

(** Tokens of a file, in order, each with its line.  An open parenthesis at
    the end of the file is an error. *)
Definition tokenize (ls : list (nat * string)) : option (list (nat * token)) :=
  match scan_lines ls (Scanner Code 0 []) with
  | Some (Scanner _ O out) => Some (rev out)
  | _ => None
  end.

(** The string literals among the tokens, and the lines they stand on. *)
Definition literal_of (t : nat * token) : option (nat * string) :=
  match snd t with
  | STRING s => Some (fst t, s)
  | _ => None
  end.

Definition literals (ts : list (nat * token)) : list (nat * string) :=
  omap literal_of ts.

Definition file_literals (ls : list (nat * string)) : option (list (nat * string)) :=
  match tokenize ls with
  | Some ts => Some (literals ts)
  | None => None
  end.

End Lexer.


(** ** Abstract syntax

    Node names follow Python's [ast] module. *)

Module Ast.

Inductive expr : Type :=
  | Name (id : string)
  | Constant (s : string)
  | Attribute (value : expr) (attr : string)
  | Call (func : expr) (args : list expr).

Inductive stmt : Type :=
  | Import (module : string) (asname : string)
  | ImportFromStar (module : string)
  | Assign (target : expr) (value : expr).



End Ast.

(** ** Parser *)

Module Parser.
Import Lexer Ast.

Definition is_op (c : ascii) (t : token) : bool := token_eqb t (OP c).
Definition is_name (id : string) (t : token) : bool := token_eqb t (NAME id).

Definition is_keyword (id : string) : bool :=
  existsb (String.eqb id) ["import"; "from"; "as"].

(** [a.b.c] as one dotted string. *)
Fixpoint dotted_rest (prefix : string) (ts : list token) : string * list token :=
  match ts with
  | OP c :: NAME id :: rest =>
      if Ascii.eqb c "." then dotted_rest (prefix +:+ "." +:+ id) rest
      else (prefix, ts)
  | _ => (prefix, ts)
  end.

Definition dotted_name (ts : list token) : option (string * list token) :=
  match ts with
  | NAME id :: rest => if is_keyword id then None else Some (dotted_rest id rest)
  | _ => None
  end.

(** Expressions: an atom followed by attribute references and calls; the
    arguments of a call are expressions separated by commas, and a comma may
    follow the last one.  The recursion is bounded by [fuel]; the number of
    tokens is always enough. *)
Fixpoint parse_expr (fuel : nat) (ts : list token) : option (expr * list token) :=
  match fuel with
  | O => None
  | S fuel' =>
      match ts with
      | NAME id :: rest =>
          if is_keyword id then None else parse_trailers fuel' (Name id) rest
      | STRING s :: rest => parse_trailers fuel' (Constant s) rest
      | _ => None
      end
  end
with parse_trailers (fuel : nat) (e : expr) (ts : list token)
    : option (expr * list token) :=
  match fuel with
  | O => None
  | S fuel' =>
      match ts with
      | OP c :: rest =>
          if Ascii.eqb c "." then
            match rest with
            | NAME a :: rest' => parse_trailers fuel' (Attribute e a) rest'
            | _ => None
            end
          else if Ascii.eqb c "(" then
            match parse_args fuel' rest with
            | Some (args, rest') => parse_trailers fuel' (Call e args) rest'
            | None => None
            end
          else Some (e, ts)
      | _ => Some (e, ts)
      end
  end
with parse_args (fuel : nat) (ts : list token) : option (list expr * list token) :=
  match fuel with
  | O => None
  | S fuel' =>
      match ts with
      | [] => None
      | t :: rest =>
          if is_op ")" t then Some ([], rest)
          else
            match parse_expr fuel' ts with
            | Some (e, t' :: rest') =>
                if is_op "," t' then
                  match parse_args fuel' rest' with
                  | Some (es, rest'') => Some (e :: es, rest'')
                  | None => None
                  end
                else if is_op ")" t' then Some ([e], rest')
                else None
            | _ => None
            end
      end
  end.

Definition assignable (e : expr) : bool :=
  match e with
  | Name _ | Attribute _ _ => true
  | _ => false
  end.

(** One simple statement and its NEWLINE. *)
Definition parse_stmt (ts : list token) : option (stmt * list token) :=
  match ts with
  | NAME "import" :: rest =>
      match dotted_name rest with
      | Some (m, NAME "as" :: NAME x :: NEWLINE :: rest') =>
          if is_keyword x then None else Some (Import m x, rest')
      | _ => None
      end
  | NAME "from" :: rest =>
      match dotted_name rest with
      | Some (m, NAME "import" :: OP "*" :: NEWLINE :: rest') =>
          Some (ImportFromStar m, rest')
      | _ => None
      end
  | _ =>
      match parse_expr (length ts) ts with
      | Some (target, OP "=" :: rest) =>
          if assignable target then
            match parse_expr (length rest) rest with
            | Some (v, NEWLINE :: rest') => Some (Assign target v, rest')
            | _ => None
            end
          else None
      | _ => None
      end
  end.

Fixpoint parse_stmts (fuel : nat) (ts : list token) : option (list stmt) :=
  match ts with
  | [] => Some []
  | _ =>
      match fuel with
      | O => None
      | S fuel' =>
          match parse_stmt ts with
          | Some (s, rest) =>
              match parse_stmts fuel' rest with
              | Some ss => Some (s :: ss)
              | None => None
              end
          | None => None
          end
      end
  end.

Definition parse (ts : list (nat * token)) : option (list stmt) :=
  parse_stmts (length ts) (map snd ts).

(** From the lines of a file to its statements. *)
Definition parse_file (ls : list (nat * string)) : option (list stmt) :=
  match tokenize ls with
  | Some ts => parse ts
  | None => None
  end.

End Parser.


(** ** The file as a program *)

Module Config.
Import Ast.

(** The arguments of [cms.vstring], lines 6 to 106 of the file. *)
Definition geomXMLFiles : list string :=
  [
    "SLHCUpgradeSimulations/Geometry/data/longbarrel/materials.xml";
    "Geometry/CMSCommonData/data/rotations.xml";
    "Geometry/CMSCommonData/data/normal/cmsextent.xml";
    "Geometry/CMSCommonData/data/cms.xml";
    "Geometry/CMSCommonData/data/cmsMother.xml";
    "Geometry/CMSCommonData/data/cmsTracker.xml";
    "Geometry/CMSCommonData/data/caloBase.xml";
    "Geometry/CMSCommonData/data/cmsCalo.xml";
    "Geometry/CMSCommonData/data/muonBase.xml";
    "Geometry/CMSCommonData/data/cmsMuon.xml";
    "Geometry/CMSCommonData/data/mgnt.xml";
    "Geometry/CMSCommonData/data/beampipe.xml";
    "Geometry/CMSCommonData/data/cmsBeam.xml";
    "Geometry/CMSCommonData/data/muonMB.xml";
    "Geometry/CMSCommonData/data/muonMagnet.xml";
    "Geometry/TrackerCommonData/data/pixfwdMaterials.xml";
    "Geometry/TrackerCommonData/data/pixfwdCommon.xml";
    "Geometry/TrackerCommonData/data/pixfwdPlaq.xml";
    "Geometry/TrackerCommonData/data/pixfwdPlaq1x2.xml";
    "Geometry/TrackerCommonData/data/pixfwdPlaq1x5.xml";
    "Geometry/TrackerCommonData/data/pixfwdPlaq2x3.xml";
    "Geometry/TrackerCommonData/data/pixfwdPlaq2x4.xml";
    "Geometry/TrackerCommonData/data/pixfwdPlaq2x5.xml";
    "Geometry/TrackerCommonData/data/pixfwdPanelBase.xml";
    "Geometry/TrackerCommonData/data/pixfwdPanel.xml";
    "Geometry/TrackerCommonData/data/pixfwdBlade.xml";
    "Geometry/TrackerCommonData/data/pixfwdNipple.xml";
    "Geometry/TrackerCommonData/data/pixfwdDisk.xml";
    "Geometry/TrackerCommonData/data/pixfwdCylinder.xml";
    "SLHCUpgradeSimulations/Geometry/data/longbarrel/pixfwd.xml";
    "Geometry/TrackerCommonData/data/pixbarmaterial.xml";
    "Geometry/TrackerCommonData/data/pixbarladder.xml";
    "Geometry/TrackerCommonData/data/pixbarladderfull.xml";
    "Geometry/TrackerCommonData/data/pixbarladderhalf.xml";
    "Geometry/TrackerCommonData/data/pixbarlayer.xml";
    "SLHCUpgradeSimulations/Geometry/data/longbarrel/pixbarlayer0.xml";
    "SLHCUpgradeSimulations/Geometry/data/longbarrel/pixbarlayer1.xml";
    "SLHCUpgradeSimulations/Geometry/data/longbarrel/pixbarlayer2.xml";
    "SLHCUpgradeSimulations/Geometry/data/longbarrel/pixbarlayer3.xml";
    "SLHCUpgradeSimulations/Geometry/data/longbarrel/pixbar.xml";
    "SLHCUpgradeSimulations/Geometry/data/longbarrel/newtracker.xml";
    "Geometry/TrackerCommonData/data/trackermaterial.xml";
    "Geometry/TrackerCommonData/data/tracker.xml";
    "Geometry/TrackerCommonData/data/trackerpixbar.xml";
    "Geometry/TrackerCommonData/data/trackerpixfwd.xml";
    "Geometry/TrackerCommonData/data/trackerother.xml";
    "Geometry/EcalCommonData/data/eregalgo.xml";
    "Geometry/EcalCommonData/data/ebalgo.xml";
    "Geometry/EcalCommonData/data/ebcon.xml";
    "Geometry/EcalCommonData/data/ebrot.xml";
    "Geometry/EcalCommonData/data/eecon.xml";
    "Geometry/EcalCommonData/data/eefixed.xml";
    "Geometry/EcalCommonData/data/eehier.xml";
    "Geometry/EcalCommonData/data/eealgo.xml";
    "Geometry/EcalCommonData/data/escon.xml";
    "Geometry/EcalCommonData/data/esalgo.xml";
    "Geometry/EcalCommonData/data/eeF.xml";
    "Geometry/EcalCommonData/data/eeB.xml";
    "Geometry/HcalCommonData/data/hcalrotations.xml";
    "Geometry/HcalCommonData/data/hcalalgo.xml";
    "Geometry/HcalCommonData/data/hcalbarrelalgo.xml";
    "Geometry/HcalCommonData/data/hcalendcapalgo.xml";
    "Geometry/HcalCommonData/data/hcalouteralgo.xml";
    "Geometry/HcalCommonData/data/hcalforwardalgo.xml";
    "Geometry/HcalCommonData/data/hcalforwardfibre.xml";
    "Geometry/HcalCommonData/data/hcalforwardmaterial.xml";
    "Geometry/MuonCommonData/data/mbCommon.xml";
    "Geometry/MuonCommonData/data/mb1.xml";
    "Geometry/MuonCommonData/data/mb2.xml";
    "Geometry/MuonCommonData/data/mb3.xml";
    "Geometry/MuonCommonData/data/mb4.xml";
    "Geometry/MuonCommonData/data/muonYoke.xml";
    "Geometry/MuonCommonData/data/mf.xml";
    "Geometry/ForwardCommonData/data/forward.xml";
    "Geometry/ForwardCommonData/data/forwardshield.xml";
    "Geometry/ForwardCommonData/data/brmrotations.xml";
    "Geometry/ForwardCommonData/data/brm.xml";
    "Geometry/ForwardCommonData/data/totemMaterials.xml";
    "Geometry/ForwardCommonData/data/totemRotations.xml";
    "Geometry/ForwardCommonData/data/totemt1.xml";
    "Geometry/ForwardCommonData/data/totemt2.xml";
    "Geometry/ForwardCommonData/data/ionpump.xml";
    "Geometry/MuonCommonData/data/muonNumbering.xml";
    "SLHCUpgradeSimulations/Geometry/data/longbarrel/trackerStructureTopology.xml";
    "SLHCUpgradeSimulations/Geometry/data/longbarrel/trackersens.xml";
    "SLHCUpgradeSimulations/Geometry/data/longbarrel/trackerRecoMaterial.xml";
    "Geometry/EcalSimData/data/ecalsens.xml";
    "Geometry/HcalCommonData/data/hcalsens.xml";
    "Geometry/HcalSimData/data/CaloUtil.xml";
    "Geometry/MuonSimData/data/muonSens.xml";
    "Geometry/DTGeometryBuilder/data/dtSpecsFilter.xml";
    "Geometry/CSCGeometryBuilder/data/cscSpecsFilter.xml";
    "Geometry/CSCGeometryBuilder/data/cscSpecs.xml";
    "Geometry/RPCGeometryBuilder/data/RPCSpecs.xml";
    "Geometry/ForwardCommonData/data/brmsens.xml";
    "Geometry/HcalSimData/data/HcalProdCuts.xml";
    "Geometry/EcalSimData/data/EcalProdCuts.xml";
    "SLHCUpgradeSimulations/Geometry/data/longbarrel/trackerProdCuts.xml";
    "Geometry/TrackerSimData/data/trackerProdCutsBEAM.xml";
    "Geometry/MuonSimData/data/muonProdCuts.xml";
    "Geometry/CMSCommonData/data/FieldParameters.xml"
  ].

(** The three statements of the file. *)
Definition program : list stmt :=
  [ Import "FWCore.ParameterSet.Config" "cms";
    ImportFromStar "Geometry.CMSCommonData.cmsIdealGeometryXML_cfi";
    Assign
      (Attribute (Name "XMLIdealGeometryESSource") "geomXMLFiles")
      (Call (Attribute (Name "cms") "vstring") (map Constant geomXMLFiles)) ].

End Config.


(** ** Evaluation

    The statements run over an explicit state: the names bound in the file's
    own namespace, the table of loaded modules with their namespaces, and a
    heap of objects with their attributes.  What the two imported modules hold
    is not part of the file; it comes with the initial state. *)

Module Eval.
Import Ast.

Definition loc : Type := positive.

(** Callables that the file uses and does not define. *)
Inductive builtin : Type :=
  | vstring.

Inductive value : Type :=
  | VStr (s : string)
  | VVString (items : list string)
  | VList (items : list value)
  | VModule (name : string)
  | VObject (l : loc)
  | VBuiltin (b : builtin).

Inductive exn : Type :=
  | NameError (id : string)
  | AttributeError (attr : string)
  | ImportError (module : string)
  | TypeError
  | SyntaxError.

Inductive outcome (A : Type) : Type :=
  | Ok (a : A)
  | Raise (e : exn).
Arguments Ok {A} a.
Arguments Raise {A} e.

Definition bind {A B : Type} (m : outcome A) (k : A -> outcome B) : outcome B :=
  match m with
  | Ok a => k a
  | Raise e => Raise e
  end.

Notation "'let*' x ':=' m 'in' k" := (bind m (fun x => k))
  (at level 10, x name, m at level 100, k at level 200).

Definition namespace : Type := gmap string value.

Record state : Type := State {
  globals : gmap string value;
  modules : gmap string (gmap string value);
  heap : gmap loc (gmap string value)
}.

(** Names that [from m import *] brings in when the module does not define
    [__all__]: those not starting with an underscore. *)
Definition is_public (id : string) : bool :=
  negb (String.prefix "_" id).

Definition public (ns : gmap string value) : gmap string value :=
  filter (fun kv => is_public (fst kv) = true) ns.

(** The packages on the way to a module: [a.b.c] needs [a], [a.b] and
    [a.b.c], in this order. *)
Fixpoint packages_from (seen : list ascii) (s : string) : list string :=
  match s with
  | EmptyString => [string_of_list_ascii (rev seen)]
  | String c rest =>
      if Ascii.eqb c "." then
        string_of_list_ascii (rev seen) :: packages_from (c :: seen) rest
      else packages_from (c :: seen) rest
  end.

Definition packages (m : string) : list string := packages_from [] m.

Fixpoint first_missing (ms : gmap string (gmap string value))
    (names : list string) : option string :=
  match names with
  | [] => None
  | n :: rest =>
      match ms !! n with
      | Some _ => first_missing ms rest
      | None => Some n
      end
  end.

(** Importing a module imports the packages on the way to it, outermost
    first; the error names the first one that cannot be found (Python's
    [ModuleNotFoundError] is an [ImportError]). *)
Definition import_module (ms : gmap string (gmap string value)) (m : string)
    : outcome (gmap string value) :=
  match first_missing ms (packages m) with
  | Some n => Raise (ImportError n)
  | None =>
      match ms !! m with
      | Some ns => Ok ns
      | None => Raise (ImportError m)
      end
  end.

Definition lookup_name (st : state) (id : string) : outcome value :=
  match globals st !! id with
  | Some v => Ok v
  | None => Raise (NameError id)
  end.

Definition getattr (st : state) (v : value) (attr : string) : outcome value :=
  match v with
  | VModule m =>
      match modules st !! m with
      | Some ns =>
          match ns !! attr with
          | Some x => Ok x
          | None => Raise (AttributeError attr)
          end
      | None => Raise (AttributeError attr)
      end
  | VObject l =>
      match heap st !! l with
      | Some attrs =>
          match attrs !! attr with
          | Some x => Ok x
          | None => Raise (AttributeError attr)
          end
      | None => Raise (AttributeError attr)
      end
  | _ => Raise (AttributeError attr)
  end.

(** Assignment to an attribute replaces the binding of that attribute in the
    object (or module) and leaves every other binding as it was.  Objects are
    plain attribute stores and modules are their namespaces; the other values
    carry no attributes here. *)
Definition setattr (st : state) (v : value) (attr : string) (x : value)
    : outcome state :=
  match v with
  | VModule m =>
      match modules st !! m with
      | Some ns =>
          Ok (State (globals st) (<[m := <[attr := x]> ns]> (modules st)) (heap st))
      | None => Raise (AttributeError attr)
      end
  | VObject l =>
      match heap st !! l with
      | Some attrs =>
          Ok (State (globals st) (modules st) (<[l := <[attr := x]> attrs]> (heap st)))
      | None => Raise (AttributeError attr)
      end
  | _ => Raise (AttributeError attr)
  end.

Fixpoint strings_of (vs : list value) : outcome (list string) :=
  match vs with
  | [] => Ok []
  | VStr s :: rest => let* ss := strings_of rest in Ok (s :: ss)
  | _ :: _ => Raise TypeError
  end.

(** The names listed by the value of [__all__]: the items of a list, which
    must be strings; the entries of a [vstring]; the characters of a string,
    each a name of its own. *)
Definition names_of (v : value) : outcome (list string) :=
  match v with
  | VList items => strings_of items
  | VVString items => Ok items
  | VStr s => Ok (map (fun c => String c EmptyString) (list_ascii_of_string s))
  | _ => Raise TypeError
  end.

(** The bindings of the listed names in a module; a listed name that the
    module does not have is an attribute error, for the first such name. *)
Fixpoint exported (ns : gmap string value) (names : list string)
    : outcome (gmap string value) :=
  match names with
  | [] => Ok ∅
  | n :: rest =>
      match ns !! n with
      | Some v => let* ex := exported ns rest in Ok (<[n := v]> ex)
      | None => Raise (AttributeError n)
      end
  end.

(** What [from m import *] brings in: the names listed in [__all__] when
    the module defines it, and its public names otherwise. *)
Definition star_exports (ns : gmap string value) : outcome (gmap string value) :=
  match ns !! "__all__" with
  | Some v => let* names := names_of v in exported ns names
  | None => Ok (public ns)
  end.

(** Modelled from the spec: [cms.vstring] is defined in
    [FWCore.ParameterSet.Config], outside the repository.  The spec describes
    its result as the ordered sequence of the string values it is given ("a
    list of string literals assigned to a configuration attribute"); it is
    taken here to build that sequence from its arguments, in their order, and
    to reject an argument that is not a string. *)
Definition call (f : value) (args : list value) : outcome value :=
  match f with
  | VBuiltin vstring => let* ss := strings_of args in Ok (VVString ss)
  | _ => Raise TypeError
  end.

(** The callee is evaluated first, then the arguments from left to right. *)
Fixpoint eval (st : state) (e : expr) : outcome value :=
  match e with
  | Name id => lookup_name st id
  | Constant s => Ok (VStr s)
  | Attribute o attr => let* v := eval st o in getattr st v attr
  | Call f args =>
      let* fv := eval st f in
      let* vs :=
        (fix eval_args (es : list expr) : outcome (list value) :=
           match es with
           | [] => Ok []
           | a :: rest =>
               let* v := eval st a in
               let* vs := eval_args rest in
               Ok (v :: vs)
           end) args in
      call fv vs
  end.

(** One statement.  In an assignment the right-hand side is evaluated before
    the object of the target. *)
Definition exec (st : state) (s : stmt) : outcome state :=
  match s with
  | Import m asname =>
      let* _ := import_module (modules st) m in
      Ok (State (<[asname := VModule m]> (globals st)) (modules st) (heap st))
  | ImportFromStar m =>
      let* ns := import_module (modules st) m in
      let* ex := star_exports ns in
      Ok (State (ex ∪ globals st) (modules st) (heap st))
  | Assign (Name id) e =>
      let* v := eval st e in
      Ok (State (<[id := v]> (globals st)) (modules st) (heap st))
  | Assign (Attribute o attr) e =>
      let* v := eval st e in
      let* ov := eval st o in
      setattr st ov attr v
  | Assign _ _ => Raise SyntaxError
  end.

Fixpoint exec_all (st : state) (ss : list stmt) : outcome state :=
  match ss with
  | [] => Ok st
  | s :: rest => let* st' := exec st s in exec_all st' rest
  end.

(** Running a file: its lines are tokenized and parsed, then its statements
    are executed in order. *)
Definition run_file (ls : list (nat * string)) (st : state) : outcome state :=
  match Parser.parse_file ls with
  | Some ss => exec_all st ss
  | None => Raise SyntaxError
  end.

(** The attribute [attr] of the object bound to the global name [id]. *)
Definition attribute_of (st : state) (id attr : string) : option value :=
  match globals st !! id with
  | Some (VObject l) =>
      match heap st !! l with
      | Some attrs => attrs !! attr
      | None => None
      end
  | _ => None
  end.

(** The packages above the two modules the file imports. *)
Definition parent_packages : list string :=
  ["FWCore"; "FWCore.ParameterSet"; "Geometry"; "Geometry.CMSCommonData"].

(** What the file needs of the state it starts in: the two modules and the
    packages above them can be imported; the first module provides
    [vstring]; the star import of the second succeeds and brings in the
    geometry source as an object of the heap; and if it brings in a name
    [cms], that is the module the file imported under that name. *)
Record importable (st : state) (l : loc) (attrs : gmap string value) : Prop := {
  packages_found : forall p,
    In p parent_packages -> is_Some (modules st !! p);
  cms_module : exists ns,
    modules st !! "FWCore.ParameterSet.Config" = Some ns /\
    ns !! "vstring" = Some (VBuiltin vstring);
  cfi_module : exists ns ex,
    modules st !! "Geometry.CMSCommonData.cmsIdealGeometryXML_cfi" = Some ns /\
    star_exports ns = Ok ex /\
    ex !! "XMLIdealGeometryESSource" = Some (VObject l) /\
    (ex !! "cms" = None \/
     ex !! "cms" = Some (VModule "FWCore.ParameterSet.Config"));
  source_object : heap st !! l = Some attrs
}.

(** The attribute [attr] of the object at [l], if both exist. *)
Definition heap_attr (st : state) (l : loc) (attr : string) : option value :=
  match heap st !! l with
  | Some attrs => attrs !! attr
  | None => None
  end.

(** The state the three statements of the file end in, [ex] being what the
    star import brings in. *)
Definition final_state (st : state) (ex : gmap string value) (l : loc)
    (attrs : gmap string value) (fs : list string) : state :=
  State (ex ∪ <["cms" := VModule "FWCore.ParameterSet.Config"]> (globals st))
        (modules st)
        (<[l := <["geomXMLFiles" := VVString fs]> attrs]> (heap st)).

(** Both imports of the file succeed in [st]: [cns] and [ns] are the
    namespaces of the two modules and [ex] is what the star import brings
    in. *)
Record imports_ok (st : state) (cns ns ex : gmap string value) : Prop := {
  io_packages : forall p, In p parent_packages -> is_Some (modules st !! p);
  io_config : modules st !! "FWCore.ParameterSet.Config" = Some cns;
  io_cfi : modules st !! "Geometry.CMSCommonData.cmsIdealGeometryXML_cfi" = Some ns;
  io_star : star_exports ns = Ok ex
}.


(** A concrete initial state: the geometry source at location 1 carries a
    default list [default] and one other parameter. *)
Definition cms_namespace : gmap string value :=
  {[ "vstring" := VBuiltin vstring ]}.

Definition cfi_namespace : gmap string value :=
  {[ "cms" := VModule "FWCore.ParameterSet.Config";
     "XMLIdealGeometryESSource" := VObject 1%positive ]}.

Definition default_attrs (default : list string) : gmap string value :=
  {[ "geomXMLFiles" := VVString default; "rootNodeName" := VStr "cms:OCMS" ]}.

(** The module table with the packages above the two modules, which hold
    nothing of their own here. *)
Definition module_table (config cfi : gmap string value)
    : gmap string (gmap string value) :=
  {[ "FWCore" := ∅;
     "FWCore.ParameterSet" := ∅;
     "FWCore.ParameterSet.Config" := config;
     "Geometry" := ∅;
     "Geometry.CMSCommonData" := ∅;
     "Geometry.CMSCommonData.cmsIdealGeometryXML_cfi" := cfi ]}.

Definition initial (default : list string) : state :=
  State ∅ (module_table cms_namespace cfi_namespace)
    {[ 1%positive := default_attrs default ]}.

(** The same with a geometry module that lists what it exports: the
    geometry source and one private name, and not [cms]. *)
Definition cfi_namespace_all : gmap string value :=
  {[ "__all__" := VList [VStr "XMLIdealGeometryESSource"; VStr "_defaults"];
     "_defaults" := VStr "ideal";
     "cms" := VModule "FWCore.ParameterSet.Config";
     "XMLIdealGeometryESSource" := VObject 1%positive ]}.

Definition initial_all (default : list string) : state :=
  State ∅ (module_table cms_namespace cfi_namespace_all)
    {[ 1%positive := default_attrs default ]}.

End Eval.


(** ** Path strings *)

Module Path.

(** Characters that a path component may not hold on the file systems the
    framework runs on, or that cannot be typed in a path without quoting: NUL,
    the other control characters (newline, carriage return and tabulators
    among them), the space and DEL. *)
Definition invalid_char (c : ascii) : bool :=
  (nat_of_ascii c <=? 32) || (nat_of_ascii c =? 127).

Definition chars (s : string) : list ascii := list_ascii_of_string s.

Definition is_relative_path (s : string) : bool :=
  negb (String.eqb s "") &&
  negb (String.prefix "/" s) &&
  forallb (fun c => negb (invalid_char c)) (chars s).

Definition ends_with (suffix s : string) : bool :=
  String.prefix (string_of_list_ascii (rev (chars suffix)))
                (string_of_list_ascii (rev (chars s))).


(** The part of a path after its last slash. *)
Fixpoint basename_from (seen : list ascii) (s : string) : string :=
  match s with
  | EmptyString => string_of_list_ascii (rev seen)
  | String c rest =>
      if Ascii.eqb c "/" then basename_from [] rest
      else basename_from (c :: seen) rest
  end.

Definition basename (s : string) : string := basename_from [] s.

Definition geometry_prefix : string := "Geometry/".

Definition longbarrel_prefix : string :=
  "SLHCUpgradeSimulations/Geometry/data/longbarrel/".

End Path.

(** ** The kinds of geometry file

    The file says nothing about what its entries describe; the kinds are read
    off the file names, the way the framework names its geometry files. *)

Module Order.
Import Path.












End Order.

(** ** Interchange formats *)

Module Interchange.

Definition LF : ascii := ascii_of_nat 10.
Definition quote : ascii := ascii_of_nat 34.
Definition backslash : ascii := ascii_of_nat 92.

Definition text_of (seen : list ascii) : string :=
  string_of_list_ascii (rev seen).

(** Modelled from the spec: the file holds no serializer; the spec names
    "a newline-delimited text file" as an interchange format that keeps the
    order and the exact strings.  Every entry is written followed by one line
    feed. *)
Fixpoint to_text (l : list string) : string :=
  match l with
  | [] => EmptyString
  | s :: rest => s +:+ String LF (to_text rest)
  end.

(** Modelled from the spec: the reader of the newline-delimited text.  An
    entry ends at a line feed; characters after the last line feed, if any,
    form a last entry. *)
Fixpoint of_text_from (seen : list ascii) (s : string) : list string :=
  match s with
  | EmptyString =>
      match seen with
      | [] => []
      | _ :: _ => [text_of seen]
      end
  | String c rest =>
      if Ascii.eqb c LF then text_of seen :: of_text_from [] rest
      else of_text_from (c :: seen) rest
  end.

Definition of_text (s : string) : list string := of_text_from [] s.

Definition hex_digit (n : nat) : ascii :=
  if n <? 10 then ascii_of_nat (48 + n) else ascii_of_nat (87 + n).

Definition hex_value (c : ascii) : option nat :=
  let n := nat_of_ascii c in
  if (48 <=? n) && (n <=? 57) then Some (n - 48)
  else if (97 <=? n) && (n <=? 102) then Some (n - 87)
  else if (65 <=? n) && (n <=? 70) then Some (n - 55)
  else None.

(** Modelled from the spec: "a JSON array" of strings.  Inside a JSON string
    the quotation mark and the reverse solidus are escaped with a reverse
    solidus and a control character is written [\u00XX]. *)
Fixpoint json_escape (s : string) : string :=
  match s with
  | EmptyString => EmptyString
  | String c rest =>
      if Ascii.eqb c quote || Ascii.eqb c backslash then
        String backslash (String c (json_escape rest))
      else if nat_of_ascii c <? 32 then
        String backslash (String "u" (String "0" (String "0"
          (String (hex_digit (nat_of_ascii c / 16))
            (String (hex_digit (nat_of_ascii c mod 16)) (json_escape rest))))))
      else String c (json_escape rest)
  end.

Definition json_string (s : string) : string :=
  String quote (json_escape s +:+ String quote EmptyString).

Fixpoint json_items (l : list string) : string :=
  match l with
  | [] => EmptyString
  | [s] => json_string s
  | s :: rest => json_string s +:+ String "," (json_items rest)
  end.

Definition to_json (l : list string) : string :=
  String "[" (json_items l +:+ String "]" EmptyString).

(** Where the JSON reader stands between two characters. *)
Inductive json_state : Type :=
  | JStart
  | JOpen
  | JString (seen : list ascii)
  | JEscape (seen : list ascii)
  | JHex (seen : list ascii) (digits : list nat)
  | JAfterString
  | JAfterComma
  | JDone.

(** The states in which a string may begin. *)
Definition expects_string (st : json_state) : Prop :=
  st = JOpen \/ st = JAfterComma.

Definition json_space (c : ascii) : bool :=
  existsb (Nat.eqb (nat_of_ascii c)) [32; 9; 10; 13].

Definition json_unescape (c : ascii) : option ascii :=
  if Ascii.eqb c quote || Ascii.eqb c backslash || Ascii.eqb c "/" then Some c
  else if Ascii.eqb c "n" then Some (ascii_of_nat 10)
  else if Ascii.eqb c "r" then Some (ascii_of_nat 13)
  else if Ascii.eqb c "t" then Some (ascii_of_nat 9)
  else if Ascii.eqb c "b" then Some (ascii_of_nat 8)
  else if Ascii.eqb c "f" then Some (ascii_of_nat 12)
  else None.

(** One character of the JSON text: the next state and the strings read so
    far (most recent first), or nothing when the text is not an array of
    strings. *)
Definition json_step (c : ascii) (st : json_state) (out : list string)
    : option (json_state * list string) :=
  match st with
  | JStart =>
      if json_space c then Some (JStart, out)
      else if Ascii.eqb c "[" then Some (JOpen, out)
      else None
  | JOpen =>
      if json_space c then Some (JOpen, out)
      else if Ascii.eqb c quote then Some (JString [], out)
      else if Ascii.eqb c "]" then Some (JDone, out)
      else None
  | JAfterComma =>
      if json_space c then Some (JAfterComma, out)
      else if Ascii.eqb c quote then Some (JString [], out)
      else None
  | JAfterString =>
      if json_space c then Some (JAfterString, out)
      else if Ascii.eqb c "," then Some (JAfterComma, out)
      else if Ascii.eqb c "]" then Some (JDone, out)
      else None
  | JDone => if json_space c then Some (JDone, out) else None
  | JString seen =>
      if Ascii.eqb c quote then Some (JAfterString, text_of seen :: out)
      else if Ascii.eqb c backslash then Some (JEscape seen, out)
      else if nat_of_ascii c <? 32 then None
      else Some (JString (c :: seen), out)
  | JEscape seen =>
      if Ascii.eqb c "u" then Some (JHex seen [], out)
      else
        match json_unescape c with
        | Some c' => Some (JString (c' :: seen), out)
        | None => None
        end
  | JHex seen digits =>
      match hex_value c with
      | None => None
      | Some d =>
          match digits with
          | [d2; d1; d0] =>
              let n := ((d0 * 16 + d1) * 16 + d2) * 16 + d in
              if n <? 256 then Some (JString (ascii_of_nat n :: seen), out)
              else None
          | _ => Some (JHex seen (d :: digits), out)
          end
      end
  end.

Fixpoint json_read (s : string) (st : json_state) (out : list string)
    : option (list string) :=
  match s with
  | EmptyString =>
      match st with
      | JDone => Some (rev out)
      | _ => None
      end
  | String c rest =>
      match json_step c st out with
      | Some (st', out') => json_read rest st' out'
      | None => None
      end
  end.

Definition of_json (s : string) : option (list string) :=
  json_read s JStart [].

End Interchange.


(** ** States in which the file fails

    Starting states that lack one of the things the file relies on; the heap
    holds the geometry source at location 1 in each. *)

Module Scenario.
Import Eval.

Definition with_modules (ms : gmap string (gmap string value)) : state :=
  State ∅ ms {[ 1%positive := default_attrs [] ]}.

(** The configuration module does not provide [vstring]. *)
Definition no_vstring : state :=
  with_modules (module_table ∅ cfi_namespace).

(** The geometry module does not provide the geometry source. *)
Definition no_source_namespace : gmap string value :=
  {[ "cms" := VModule "FWCore.ParameterSet.Config" ]}.

Definition no_source : state :=
  with_modules (module_table cms_namespace no_source_namespace).

(** The geometry module exports a name [cms] that is a string. *)
Definition cms_shadowed_namespace : gmap string value :=
  {[ "cms" := VStr "cms";
     "XMLIdealGeometryESSource" := VObject 1%positive ]}.

Definition cms_shadowed : state :=
  with_modules (module_table cms_namespace cms_shadowed_namespace).

End Scenario.


(** * Properties *)

(** ** The text and the program *)

(** The explicit program is what the text of the file parses to. *)
Lemma parse_source : Parser.parse_file Source.numbered = Some Config.program.
Proof. vm_compute. reflexivity. Qed.

(** ** Strings *)

Section StringFacts.

Lemma chars_append (s t : string) :
  Path.chars (s +:+ t) = Path.chars s ++ Path.chars t.
Proof.
  unfold Path.chars. induction s as [|c s IH]; simpl; [reflexivity|].
  now rewrite IH.
Qed.

Lemma string_of_chars (s : string) : string_of_list_ascii (Path.chars s) = s.
Proof. apply string_of_list_ascii_of_string. Qed.

Lemma chars_of_string (l : list ascii) :
  Path.chars (string_of_list_ascii l) = l.
Proof. apply list_ascii_of_string_of_list_ascii. Qed.

Lemma string_of_app (l k : list ascii) :
  string_of_list_ascii (l ++ k) = string_of_list_ascii l +:+ string_of_list_ascii k.
Proof. induction l as [|c l IH]; simpl; [reflexivity|]. now rewrite IH. Qed.

(** [String.prefix] decides "starts with". *)
Lemma prefix_spec (p s : string) :
  String.prefix p s = true <-> exists rest, s = p +:+ rest.
Proof.
  revert s. induction p as [|c p IH]; intros s.
  - split; [intros _; now exists s | now destruct s].
  - destruct s as [|d s]; simpl.
    + split; [discriminate | intros [rest H]; discriminate].
    + destruct (ascii_dec c d) as [->|Hne].
      * rewrite IH. split; intros [rest H]; exists rest.
        -- now rewrite H.
        -- now injection H.
      * split; [discriminate | intros [rest H]; injection H; congruence].
Qed.

(** [Path.ends_with] decides "ends with". *)
Lemma ends_with_spec (suffix s : string) :
  Path.ends_with suffix s = true <-> exists stem, s = stem +:+ suffix.
Proof.
  unfold Path.ends_with. rewrite prefix_spec. split.
  - intros [rest H]. exists (string_of_list_ascii (rev (Path.chars rest))).
    apply (f_equal Path.chars) in H.
    rewrite chars_append, !chars_of_string in H.
    apply (f_equal (@rev ascii)) in H. rewrite rev_app_distr, !rev_involutive in H.
    rewrite <- (string_of_chars s), H, string_of_app, string_of_chars.
    reflexivity.
  - intros [stem ->].
    exists (string_of_list_ascii (rev (Path.chars stem))).
    rewrite chars_append, rev_app_distr, string_of_app. reflexivity.
Qed.

Lemma is_relative_path_spec (s : string) :
  Path.is_relative_path s = true <->
  s <> "" /\ (~ exists rest, s = "/" +:+ rest) /\
  (forall c, In c (Path.chars s) -> Path.invalid_char c = false).
Proof.
  unfold Path.is_relative_path.
  rewrite !andb_true_iff, !negb_true_iff, String.eqb_neq, forallb_forall.
  rewrite <- prefix_spec, not_true_iff_false.
  setoid_rewrite negb_true_iff. tauto.
Qed.

End StringFacts.

(** ** The entries of the list *)

Lemma entries_are_relative_paths (s : string) :
  In s Config.geomXMLFiles -> Path.is_relative_path s = true.
Proof.
  revert s. apply List.forallb_forall. vm_compute. reflexivity.
Qed.

(** C3.  Every entry is a non-empty relative path: it is not the empty
    string, it does not begin with a slash, and it holds no NUL, no newline,
    no white space and no other control character. *)
Theorem C3_entries_are_relative_paths :
  Forall (fun s : string =>
            s <> "" /\
            (~ exists rest, s = "/" +:+ rest) /\
            (forall c, In c (Path.chars s) -> Path.invalid_char c = false))
         Config.geomXMLFiles.
Proof.
  apply List.Forall_forall. intros s Hs.
  now apply is_relative_path_spec, entries_are_relative_paths.
Qed.

(** C4.  The entries are pairwise distinct: entries at different positions
    are different strings. *)
Theorem C4_entries_are_distinct :
  NoDup Config.geomXMLFiles /\
  forall (i j : nat) (a b : string),
    i <> j ->
    Config.geomXMLFiles !! i = Some a ->
    Config.geomXMLFiles !! j = Some b ->
    a <> b.
Proof.
  assert (H : NoDup Config.geomXMLFiles).
  { apply (bool_decide_unpack _). vm_compute. exact I. }
  split; [exact H|].
  intros i j a b Hij Ha Hb ->.
  apply Hij. exact (proj1 (NoDup_alt _) H i j b Ha Hb).
Qed.

(** C8.  Every entry ends with the suffix [.xml]. *)
Theorem C8_entries_end_with_xml :
  Forall (fun s : string => exists stem, s = stem +:+ ".xml") Config.geomXMLFiles.
Proof.
  apply List.Forall_forall. intros s Hs. apply ends_with_spec.
  revert s Hs. apply List.forallb_forall.
  vm_compute. reflexivity.
Qed.

(** C9.  Every entry begins with [Geometry/] or with the long-barrel prefix
    [SLHCUpgradeSimulations/Geometry/data/longbarrel/], and exactly 12
    entries begin with the latter. *)
Theorem C9_entry_prefixes :
  Forall (fun s : string =>
            (exists rest, s = Path.geometry_prefix +:+ rest) \/
            (exists rest, s = Path.longbarrel_prefix +:+ rest))
         Config.geomXMLFiles /\
  length (List.filter (String.prefix Path.longbarrel_prefix) Config.geomXMLFiles) = 12 /\
  (forall s, String.prefix Path.longbarrel_prefix s = true <->
             exists rest, s = Path.longbarrel_prefix +:+ rest).
Proof.
  split; [|split; [vm_compute; reflexivity | intros s; apply prefix_spec]].
  apply List.Forall_forall. intros s Hs.
  rewrite <- !prefix_spec. apply orb_true_iff.
  revert s Hs.
  apply (proj1 (List.forallb_forall
    (fun s => String.prefix Path.geometry_prefix s
              || String.prefix Path.longbarrel_prefix s) _)).
  vm_compute. reflexivity.
Qed.

(** ** The order of the entries *)

Section OrderFacts.
Import Order.

Variables before after : string -> bool.



End OrderFacts.




(** ** Running the file *)

Section Evaluation.
Import Ast Eval.

Lemma strings_of_VStr (fs : list string) : strings_of (map VStr fs) = Ok fs.
Proof. induction fs as [|f fs IH]; simpl; [reflexivity|]. now rewrite IH. Qed.

(** A call whose arguments are all string literals. *)
Lemma eval_call_constants (st : state) (f : expr) (fs : list string) :
  eval st (Call f (map Constant fs)) =
  bind (eval st f) (fun fv => call fv (map VStr fs)).
Proof.
  simpl. destruct (eval st f) as [fv|e]; simpl; [|reflexivity].
  assert (H : (fix eval_args (es : list expr) : outcome (list value) :=
                 match es with
                 | [] => Ok []
                 | a :: rest =>
                     bind (eval st a) (fun v =>
                     bind (eval_args rest) (fun vs => Ok (v :: vs)))
                 end) (map Constant fs) = Ok (map VStr fs)).
  { induction fs as [|s fs IH]; simpl; [reflexivity|]. now rewrite IH. }
  now rewrite H.
Qed.

Lemma bind_Ok_r {A : Type} (m : outcome A) : bind m Ok = m.
Proof. now destruct m. Qed.

(** The two imports succeed when the modules and the packages above them
    are there. *)
Lemma import_config (ms : gmap string (gmap string value)) (cns : gmap string value) :
  (forall p, In p parent_packages -> is_Some (ms !! p)) ->
  ms !! "FWCore.ParameterSet.Config" = Some cns ->
  import_module ms "FWCore.ParameterSet.Config" = Ok cns.
Proof.
  intros Hp Hc. unfold import_module.
  change (packages "FWCore.ParameterSet.Config")
    with ["FWCore"; "FWCore.ParameterSet"; "FWCore.ParameterSet.Config"].
  cbn [first_missing].
  destruct (Hp "FWCore") as [x1 ->]; [cbn; tauto|].
  destruct (Hp "FWCore.ParameterSet") as [x2 ->]; [cbn; tauto|].
  now rewrite Hc.
Qed.

Lemma import_cfi (ms : gmap string (gmap string value)) (ns : gmap string value) :
  (forall p, In p parent_packages -> is_Some (ms !! p)) ->
  ms !! "Geometry.CMSCommonData.cmsIdealGeometryXML_cfi" = Some ns ->
  import_module ms "Geometry.CMSCommonData.cmsIdealGeometryXML_cfi" = Ok ns.
Proof.
  intros Hp Hc. unfold import_module.
  change (packages "Geometry.CMSCommonData.cmsIdealGeometryXML_cfi")
    with ["Geometry"; "Geometry.CMSCommonData";
          "Geometry.CMSCommonData.cmsIdealGeometryXML_cfi"].
  cbn [first_missing].
  destruct (Hp "Geometry") as [x1 ->]; [cbn; tauto|].
  destruct (Hp "Geometry.CMSCommonData") as [x2 ->]; [cbn; tauto|].
  now rewrite Hc.
Qed.

(** The state after the two imports, [ex] being what the star import
    brought in. *)
Local Abbreviation imported st ex :=
  (State (ex ∪ <["cms" := VModule "FWCore.ParameterSet.Config"]> (globals st))
         (modules st) (heap st)).

(** The assignment, once both imports have succeeded. *)
Lemma run_after_imports (st : state) (cns ns ex : gmap string value) :
  imports_ok st cns ns ex ->
  run_file Source.numbered st =
  bind (bind (lookup_name (imported st ex) "cms")
             (fun c => getattr (imported st ex) c "vstring"))
    (fun fv =>
  bind (call fv (map VStr Config.geomXMLFiles)) (fun v =>
  bind (lookup_name (imported st ex) "XMLIdealGeometryESSource") (fun ov =>
  setattr (imported st ex) ov "geomXMLFiles" v))).
Proof.
  intros [Hp Hc Hf Hex].
  unfold run_file. rewrite parse_source. unfold Config.program.
  cbn [exec_all]. unfold exec at 1.
  rewrite (import_config _ _ Hp Hc). cbn [bind].
  unfold exec at 1. cbn [modules globals heap].
  rewrite (import_cfi _ _ Hp Hf). cbn [bind]. rewrite Hex. cbn [bind].
  rewrite bind_Ok_r. unfold exec. rewrite eval_call_constants.
  cbn [eval]. cbn [globals modules heap].
  destruct (lookup_name (imported st ex) "cms") as [c|e]; [|reflexivity].
  cbn [bind].
  destruct (getattr (imported st ex) c "vstring") as [fv|e]; [|reflexivity].
  cbn [bind]. reflexivity.
Qed.

(** The name [cms] after the star import, when the import leaves it alone or
    binds it to the configuration module again. *)
Lemma imported_cms (g ex : gmap string value) :
  ex !! "cms" = None \/ ex !! "cms" = Some (VModule "FWCore.ParameterSet.Config") ->
  (ex ∪ <["cms" := VModule "FWCore.ParameterSet.Config"]> g) !! "cms"
  = Some (VModule "FWCore.ParameterSet.Config").
Proof.
  intros [Hnone|Hsome].
  - rewrite lookup_union_r by exact Hnone. apply lookup_insert_eq.
  - now apply lookup_union_Some_l.
Qed.

(** The file runs to the end from every state it can be imported in. *)
Lemma run_source (st : state) (l : loc) (attrs : gmap string value) :
  importable st l attrs ->
  exists ns ex,
    modules st !! "Geometry.CMSCommonData.cmsIdealGeometryXML_cfi" = Some ns /\
    star_exports ns = Ok ex /\
    ex !! "XMLIdealGeometryESSource" = Some (VObject l) /\
    (ex !! "cms" = None \/
     ex !! "cms" = Some (VModule "FWCore.ParameterSet.Config")) /\
    run_file Source.numbered st
    = Ok (final_state st ex l attrs Config.geomXMLFiles).
Proof.
  intros [Hp [cns [Hc Hv]] [ns [ex [Hf [Hex [Hx Hcms]]]]] Hl].
  exists ns, ex. repeat (split; [assumption|]).
  rewrite (run_after_imports st cns ns ex) by (split; assumption).
  unfold lookup_name. cbn [globals].
  rewrite (imported_cms _ _ Hcms), (lookup_union_Some_l _ _ _ _ Hx).
  cbn [bind getattr modules]. rewrite Hc, Hv.
  cbn [bind call]. rewrite strings_of_VStr.
  cbn [bind setattr heap]. rewrite Hl. reflexivity.
Qed.

Lemma attribute_of_final (st : state) (ex : gmap string value) (l : loc)
    (attrs : gmap string value) (fs : list string) :
  ex !! "XMLIdealGeometryESSource" = Some (VObject l) ->
  attribute_of (final_state st ex l attrs fs)
    "XMLIdealGeometryESSource" "geomXMLFiles" = Some (VVString fs).
Proof.
  intros Hx. unfold attribute_of, final_state. cbn [globals heap].
  rewrite (lookup_union_Some_l _ _ _ _ Hx).
  now rewrite !lookup_insert_eq.
Qed.



Lemma lookup_map {A B : Type} (f : A -> B) (l : list A) (i : nat) :
  map f l !! i = option_map f (l !! i).
Proof.
  revert i. induction l as [|x l IH]; intros [|i]; simpl; try reflexivity.
  apply IH.
Qed.

(** The string literals of the text, in order, are the arguments of the
    call, and they stand on the lines 6 to 106, one on each. *)
Lemma source_literals :
  option_map (map snd) (Lexer.file_literals Source.numbered)
  = Some Config.geomXMLFiles.
Proof. vm_compute. reflexivity. Qed.

Lemma source_literal_lines :
  option_map (map fst) (Lexer.file_literals Source.numbered) = Some (seq 6 101).
Proof. vm_compute. reflexivity. Qed.

End Evaluation.

(** The concrete initial states are ones the file can be imported in; the
    lookups are decided by computation. *)
Ltac packages_are_found :=
  let p := fresh "p" in
  let Hp := fresh "Hp" in
  intros p Hp; cbn in Hp;
  repeat (destruct Hp as [<-|Hp]; [exists ∅; vm_compute; reflexivity|]);
  destruct Hp.

Ltac initial_is_importable :=
  split;
  [ packages_are_found
  | exists Eval.cms_namespace; split; vm_compute; reflexivity
  | exists Eval.cfi_namespace, (Eval.public Eval.cfi_namespace);
    split; [vm_compute; reflexivity|];
    split; [vm_compute; reflexivity|];
    split; [vm_compute; reflexivity|];
    right; vm_compute; reflexivity
  | vm_compute; reflexivity ].

(** The same for the geometry module that lists its exports in [__all__];
    the star import then brings in no name [cms]. *)
Ltac initial_all_is_importable :=
  split;
  [ packages_are_found
  | exists Eval.cms_namespace; split; vm_compute; reflexivity
  | exists Eval.cfi_namespace_all,
      {[ "XMLIdealGeometryESSource" := Eval.VObject 1%positive;
         "_defaults" := Eval.VStr "ideal" ]};
    split; [vm_compute; reflexivity|];
    split; [vm_compute; reflexivity|];
    split; [vm_compute; reflexivity|];
    left; vm_compute; reflexivity
  | vm_compute; reflexivity ].

(** C1.  Evaluating the file, from any state in which its two imports
    succeed, gives the attribute [XMLIdealGeometryESSource.geomXMLFiles]
    exactly the sequence of path strings written in the source, in their
    order and byte for byte; these are the string literals of the text, which
    stand on the lines 6 to 106. *)
Theorem C1_evaluation_reproduces_literals
    (st : Eval.state) (l : Eval.loc) (attrs : gmap string Eval.value) :
  Eval.importable st l attrs ->
  exists st' : Eval.state,
    Eval.run_file Source.numbered st = Eval.Ok st' /\
    Eval.attribute_of st' "XMLIdealGeometryESSource" "geomXMLFiles"
      = Some (Eval.VVString Config.geomXMLFiles) /\
    Lexer.file_literals Source.numbered
      = Some (zip (seq 6 101) Config.geomXMLFiles) /\
    forall (i : nat) (s : string),
      Config.geomXMLFiles !! i = Some s ->
      option_map (fun ls => ls !! i) (Lexer.file_literals Source.numbered)
        = Some (Some (6 + i, s)).
Proof.
  intros H. destruct (run_source st l attrs H) as [ns [ex [_ [_ [Hx [_ Hrun]]]]]].
  exists (Eval.final_state st ex l attrs Config.geomXMLFiles).
  split; [exact Hrun|].
  split; [now apply attribute_of_final|].
  assert (Hlit : Lexer.file_literals Source.numbered
                 = Some (zip (seq 6 101) Config.geomXMLFiles)).
  { vm_compute. reflexivity. }
  split; [exact Hlit|].
  intros i s Hi. rewrite Hlit. cbn [option_map]. do 2 f_equal.
  apply lookup_zip_with_Some. exists (6 + i), s.
  split; [reflexivity|]. split; [|exact Hi].
  apply lookup_seq. split; [reflexivity|].
  apply lookup_lt_Some in Hi. exact Hi.
Qed.

Lemma C1_evaluation_reproduces_literals_witness :
  Eval.importable (Eval.initial ["Geometry/CMSCommonData/data/materials.xml"])
    1%positive (Eval.default_attrs ["Geometry/CMSCommonData/data/materials.xml"]) /\
  exists st' : Eval.state,
    Eval.run_file Source.numbered
      (Eval.initial ["Geometry/CMSCommonData/data/materials.xml"]) = Eval.Ok st' /\
    Eval.attribute_of st' "XMLIdealGeometryESSource" "geomXMLFiles"
      = Some (Eval.VVString Config.geomXMLFiles) /\
    Lexer.file_literals Source.numbered
      = Some (zip (seq 6 101) Config.geomXMLFiles) /\
    forall (i : nat) (s : string),
      Config.geomXMLFiles !! i = Some s ->
      option_map (fun ls => ls !! i) (Lexer.file_literals Source.numbered)
        = Some (Some (6 + i, s)).
Proof.
  assert (H : Eval.importable
                (Eval.initial ["Geometry/CMSCommonData/data/materials.xml"])
                1%positive
                (Eval.default_attrs ["Geometry/CMSCommonData/data/materials.xml"])).
  { initial_is_importable. }
  split; [exact H|].
  exact (C1_evaluation_reproduces_literals _ _ _ H).
Defined.

(** C2.  The list that the assignment leaves in
    [XMLIdealGeometryESSource.geomXMLFiles] has exactly 101 entries, and
    that is the number of string literals in the source: the text holds one
    literal on each of the lines 6 to 106, and they are the arguments of the
    one call of [cms.vstring] the file parses to. *)
Theorem C2_entry_count
    (st : Eval.state) (l : Eval.loc) (attrs : gmap string Eval.value) :
  Eval.importable st l attrs ->
  exists (st' : Eval.state) (items : list string),
    Eval.run_file Source.numbered st = Eval.Ok st' /\
    Eval.attribute_of st' "XMLIdealGeometryESSource" "geomXMLFiles"
      = Some (Eval.VVString items) /\
    length items = 101 /\
    option_map (map fst) (Lexer.file_literals Source.numbered) = Some (seq 6 101) /\
    option_map (@length _) (Lexer.file_literals Source.numbered)
      = Some (length items) /\
    Parser.parse_file Source.numbered =
      Some [ Ast.Import "FWCore.ParameterSet.Config" "cms";
             Ast.ImportFromStar "Geometry.CMSCommonData.cmsIdealGeometryXML_cfi";
             Ast.Assign
               (Ast.Attribute (Ast.Name "XMLIdealGeometryESSource") "geomXMLFiles")
               (Ast.Call (Ast.Attribute (Ast.Name "cms") "vstring")
                         (map Ast.Constant items)) ].
Proof.
  intros H. destruct (run_source st l attrs H) as [ns [ex [_ [_ [Hx [_ Hrun]]]]]].
  exists (Eval.final_state st ex l attrs Config.geomXMLFiles), Config.geomXMLFiles.
  split; [exact Hrun|].
  split; [now apply attribute_of_final|].
  split; [reflexivity|].
  split; [exact source_literal_lines|].
  split; [vm_compute; reflexivity|].
  exact parse_source.
Qed.

Lemma C2_entry_count_witness :
  Eval.importable (Eval.initial_all []) 1%positive (Eval.default_attrs []) /\
  exists (st' : Eval.state) (items : list string),
    Eval.run_file Source.numbered (Eval.initial_all []) = Eval.Ok st' /\
    Eval.attribute_of st' "XMLIdealGeometryESSource" "geomXMLFiles"
      = Some (Eval.VVString items) /\
    length items = 101 /\
    option_map (map fst) (Lexer.file_literals Source.numbered) = Some (seq 6 101) /\
    option_map (@length _) (Lexer.file_literals Source.numbered)
      = Some (length items) /\
    Parser.parse_file Source.numbered =
      Some [ Ast.Import "FWCore.ParameterSet.Config" "cms";
             Ast.ImportFromStar "Geometry.CMSCommonData.cmsIdealGeometryXML_cfi";
             Ast.Assign
               (Ast.Attribute (Ast.Name "XMLIdealGeometryESSource") "geomXMLFiles")
               (Ast.Call (Ast.Attribute (Ast.Name "cms") "vstring")
                         (map Ast.Constant items)) ].
Proof.
  assert (H : Eval.importable (Eval.initial_all []) 1%positive
                (Eval.default_attrs [])).
  { initial_all_is_importable. }
  split; [exact H|].
  exact (C2_entry_count _ _ _ H).
Defined.




(** C10.  The value the file leaves in [geomXMLFiles] does not depend on the
    value the imported module gave it: from any two states in which the file
    can be imported, whatever the geometry source holds in them, the file runs
    to the end and the attribute is the same list of 101 entries. *)
Theorem C10_independent_of_default
    (st1 st2 : Eval.state) (l1 l2 : Eval.loc)
    (attrs1 attrs2 : gmap string Eval.value) :
  Eval.importable st1 l1 attrs1 ->
  Eval.importable st2 l2 attrs2 ->
  exists st1' st2' : Eval.state,
    Eval.run_file Source.numbered st1 = Eval.Ok st1' /\
    Eval.run_file Source.numbered st2 = Eval.Ok st2' /\
    Eval.attribute_of st1' "XMLIdealGeometryESSource" "geomXMLFiles"
      = Some (Eval.VVString Config.geomXMLFiles) /\
    Eval.attribute_of st2' "XMLIdealGeometryESSource" "geomXMLFiles"
      = Eval.attribute_of st1' "XMLIdealGeometryESSource" "geomXMLFiles" /\
    length Config.geomXMLFiles = 101.
Proof.
  intros H1 H2.
  destruct (run_source st1 l1 attrs1 H1) as [ns1 [ex1 [_ [_ [Hx1 [_ Hrun1]]]]]].
  destruct (run_source st2 l2 attrs2 H2) as [ns2 [ex2 [_ [_ [Hx2 [_ Hrun2]]]]]].
  exists (Eval.final_state st1 ex1 l1 attrs1 Config.geomXMLFiles),
         (Eval.final_state st2 ex2 l2 attrs2 Config.geomXMLFiles).
  split; [exact Hrun1|]. split; [exact Hrun2|].
  rewrite !attribute_of_final by assumption. repeat split; reflexivity.
Qed.

Lemma C10_independent_of_default_witness :
  Eval.heap_attr (Eval.initial []) 1%positive "geomXMLFiles"
    <> Eval.heap_attr
         (Eval.initial_all ["Geometry/CMSCommonData/data/materials.xml"])
         1%positive "geomXMLFiles" /\
  exists st1' st2' : Eval.state,
    Eval.run_file Source.numbered (Eval.initial []) = Eval.Ok st1' /\
    Eval.run_file Source.numbered
      (Eval.initial_all ["Geometry/CMSCommonData/data/materials.xml"])
      = Eval.Ok st2' /\
    Eval.attribute_of st1' "XMLIdealGeometryESSource" "geomXMLFiles"
      = Some (Eval.VVString Config.geomXMLFiles) /\
    Eval.attribute_of st2' "XMLIdealGeometryESSource" "geomXMLFiles"
      = Eval.attribute_of st1' "XMLIdealGeometryESSource" "geomXMLFiles" /\
    length Config.geomXMLFiles = 101.
Proof.
  split; [vm_compute; discriminate|].
  apply (C10_independent_of_default
           (Eval.initial [])
           (Eval.initial_all ["Geometry/CMSCommonData/data/materials.xml"])
           1%positive 1%positive
           (Eval.default_attrs [])
           (Eval.default_attrs ["Geometry/CMSCommonData/data/materials.xml"]));
    [initial_is_importable | initial_all_is_importable].
Defined.

(** ** Interchange formats *)

Section RoundTrip.
Import Interchange.

Lemma append_assoc (s t u : string) : (s +:+ t) +:+ u = s +:+ (t +:+ u).
Proof.
  induction s as [|c s IH]; [reflexivity|].
  change (String c ((s +:+ t) +:+ u) = String c (s +:+ (t +:+ u))).
  now f_equal.
Qed.

Lemma text_of_rev_chars (s : string) : text_of (rev (Path.chars s)) = s.
Proof. unfold text_of. now rewrite rev_involutive, string_of_chars. Qed.

(** Reading back one written line. *)
Lemma of_text_line (s rest : string) (seen : list ascii) :
  ~ In LF (Path.chars s) ->
  of_text_from seen (s +:+ String LF rest)
  = text_of (rev (Path.chars s) ++ seen) :: of_text_from [] rest.
Proof.
  revert seen. induction s as [|c s IH]; intros seen Hs; simpl.
  - reflexivity.
  - simpl in Hs. destruct (Ascii.eqb_spec c LF) as [->|Hc]; [tauto|].
    rewrite IH by tauto. now rewrite <- List.app_assoc.
Qed.

(** The text format gives back every list whose entries hold no line feed. *)
Lemma of_text_to_text (l : list string) :
  Forall (fun s => ~ In LF (Path.chars s)) l -> of_text (to_text l) = l.
Proof.
  unfold of_text. induction 1 as [|s l Hs Hl IH]; simpl; [reflexivity|].
  rewrite of_text_line by exact Hs.
  now rewrite app_nil_r, text_of_rev_chars, IH.
Qed.

(** Reading back one escaped character. *)
Lemma json_read_escaped_char (c : ascii) (s rest : string)
    (seen : list ascii) (out : list string) :
  json_read (json_escape (String c s) +:+ rest) (JString seen) out
  = json_read (json_escape s +:+ rest) (JString (c :: seen)) out.
Proof. destruct c as [[] [] [] [] [] [] [] []]; reflexivity. Qed.

Lemma json_read_escaped (s rest : string) (seen : list ascii) (out : list string) :
  json_read (json_escape s +:+ rest) (JString seen) out
  = json_read rest (JString (rev (Path.chars s) ++ seen)) out.
Proof.
  revert seen. induction s as [|c s IH]; intros seen.
  - reflexivity.
  - rewrite json_read_escaped_char, IH.
    change (Path.chars (String c s)) with (c :: Path.chars s).
    simpl rev. now rewrite <- List.app_assoc.
Qed.

Lemma json_read_string (s rest : string) (st : json_state) (out : list string) :
  expects_string st ->
  json_read (json_string s +:+ rest) st out = json_read rest JAfterString (s :: out).
Proof.
  intros Hst. unfold json_string.
  change (String quote (json_escape s +:+ String quote EmptyString) +:+ rest)
    with (String quote ((json_escape s +:+ String quote EmptyString) +:+ rest)).
  rewrite append_assoc.
  assert (Hq : json_read (String quote (json_escape s +:+ String quote EmptyString +:+ rest)) st out
               = json_read (json_escape s +:+ String quote EmptyString +:+ rest) (JString []) out).
  { destruct Hst as [-> | ->]; reflexivity. }
  rewrite Hq, json_read_escaped, app_nil_r.
  change (String quote EmptyString +:+ rest) with (String quote rest).
  cbn [json_read json_step]. change (Ascii.eqb quote quote) with true.
  cbv iota. now rewrite text_of_rev_chars.
Qed.

Lemma json_read_items (l : list string) (st : json_state) (out : list string) :
  expects_string st -> l <> [] ->
  json_read (json_items l +:+ String "]" EmptyString) st out = Some (rev out ++ l).
Proof.
  revert st out. induction l as [|s l IH]; intros st out Hst Hl; [congruence|].
  destruct l as [|s' l].
  - cbn [json_items]. rewrite json_read_string by exact Hst.
    reflexivity.
  - change (json_items (s :: s' :: l))
      with (json_string s +:+ String "," (json_items (s' :: l))).
    rewrite append_assoc, json_read_string by exact Hst.
    change (String "," (json_items (s' :: l)) +:+ String "]" EmptyString)
      with (String "," (json_items (s' :: l) +:+ String "]" EmptyString)).
    change (json_read (String "," ?r) JAfterString ?o)
      with (json_read r JAfterComma o).
    rewrite IH by (unfold expects_string; auto; congruence).
    simpl rev. now rewrite <- List.app_assoc.
Qed.

(** The JSON format gives back every list of strings. *)
Lemma of_json_to_json (l : list string) : of_json (to_json l) = Some l.
Proof.
  unfold of_json, to_json.
  change (json_read (String "[" ?r) JStart ?o) with (json_read r JOpen o).
  destruct l as [|s l]; [reflexivity|].
  now rewrite json_read_items by (unfold expects_string; auto; congruence).
Qed.

End RoundTrip.

(** C7.  Written as newline-delimited text and read back, and written as a
    JSON array of strings and read back, the list comes out as it went in,
    element by element and in order. *)
Theorem C7_round_trip :
  Interchange.of_text (Interchange.to_text Config.geomXMLFiles)
    = Config.geomXMLFiles /\
  Interchange.of_json (Interchange.to_json Config.geomXMLFiles)
    = Some Config.geomXMLFiles.
Proof.
  split; [|apply of_json_to_json].
  apply of_text_to_text, List.Forall_forall. intros s Hs Hin.
  apply entries_are_relative_paths, is_relative_path_spec in Hs.
  destruct Hs as [_ [_ Hs]]. specialize (Hs _ Hin). discriminate.
Qed.

(** ** Failures, repeated runs and sharing *)

Section Runs.
Import Ast Eval.

Local Abbreviation imported st ex :=
  (State (ex ∪ <["cms" := VModule "FWCore.ParameterSet.Config"]> (globals st))
         (modules st) (heap st)).

(** If both imports succeed and the star import leaves [cms] bound to the
    configuration module, but that module does not provide [vstring], the
    file fails with an attribute error for [vstring], whether or not the
    geometry source exists: the right-hand side of the assignment is
    evaluated before its target. *)
Theorem vstring_missing (st : state) (cns ns ex : gmap string value) :
  imports_ok st cns ns ex ->
  ex !! "cms" = None \/ ex !! "cms" = Some (VModule "FWCore.ParameterSet.Config") ->
  cns !! "vstring" = None ->
  run_file Source.numbered st = Raise (AttributeError "vstring").
Proof.
  intros Hok Hcms Hv. rewrite (run_after_imports st cns ns ex Hok).
  unfold lookup_name at 1. cbn [globals]. rewrite (imported_cms _ _ Hcms).
  cbn [bind getattr modules]. now rewrite (io_config _ _ _ _ Hok), Hv.
Qed.

Lemma vstring_missing_witness :
  imports_ok Scenario.no_vstring ∅ cfi_namespace (public cfi_namespace) /\
  run_file Source.numbered Scenario.no_vstring = Raise (AttributeError "vstring").
Proof.
  assert (H : imports_ok Scenario.no_vstring ∅ cfi_namespace (public cfi_namespace)).
  { split; [packages_are_found | vm_compute; reflexivity ..]. }
  split; [exact H|].
  apply (vstring_missing _ _ _ _ H).
  - right. vm_compute. reflexivity.
  - vm_compute. reflexivity.
Defined.

(** If both imports succeed, the star import leaves [cms] bound to the
    configuration module and that module provides [vstring], but neither the
    star import nor the names bound before the file runs provide
    [XMLIdealGeometryESSource], the file fails with a name error for it. *)
Theorem geometry_source_missing (st : state) (cns ns ex : gmap string value) :
  imports_ok st cns ns ex ->
  ex !! "cms" = None \/ ex !! "cms" = Some (VModule "FWCore.ParameterSet.Config") ->
  cns !! "vstring" = Some (VBuiltin vstring) ->
  ex !! "XMLIdealGeometryESSource" = None ->
  globals st !! "XMLIdealGeometryESSource" = None ->
  run_file Source.numbered st = Raise (NameError "XMLIdealGeometryESSource").
Proof.
  intros Hok Hcms Hv Hx Hg. rewrite (run_after_imports st cns ns ex Hok).
  unfold lookup_name. cbn [globals]. rewrite (imported_cms _ _ Hcms).
  cbn [bind getattr modules]. rewrite (io_config _ _ _ _ Hok), Hv.
  cbn [bind call]. rewrite strings_of_VStr. cbn [bind].
  rewrite (lookup_union_r _ _ _ Hx).
  rewrite lookup_insert_ne by discriminate. now rewrite Hg.
Qed.

Lemma geometry_source_missing_witness :
  imports_ok Scenario.no_source cms_namespace Scenario.no_source_namespace
    (public Scenario.no_source_namespace) /\
  run_file Source.numbered Scenario.no_source
    = Raise (NameError "XMLIdealGeometryESSource").
Proof.
  assert (H : imports_ok Scenario.no_source cms_namespace
                Scenario.no_source_namespace
                (public Scenario.no_source_namespace)).
  { split; [packages_are_found | vm_compute; reflexivity ..]. }
  split; [exact H|].
  apply (geometry_source_missing _ _ _ _ H).
  - right. vm_compute. reflexivity.
  - vm_compute. reflexivity.
  - vm_compute. reflexivity.
  - vm_compute. reflexivity.
Defined.

(** The star import runs after [import ... as cms] and rebinds every name it
    brings in: if both imports succeed and the star import brings in a name
    [cms] whose value is neither a module nor an object, the file fails with
    an attribute error for [vstring], whatever the configuration module
    provides. *)
Theorem cms_rebound_by_star_import (st : state) (cns ns ex : gmap string value)
    (v : value) :
  imports_ok st cns ns ex ->
  ex !! "cms" = Some v ->
  (forall m, v <> VModule m) ->
  (forall l, v <> VObject l) ->
  run_file Source.numbered st = Raise (AttributeError "vstring").
Proof.
  intros Hok Hcms Hm Ho. rewrite (run_after_imports st cns ns ex Hok).
  unfold lookup_name at 1. cbn [globals].
  rewrite (lookup_union_Some_l _ _ _ _ Hcms).
  cbn [bind]. destruct v; try reflexivity.
  - now destruct (Hm name).
  - now destruct (Ho l).
Qed.

Lemma cms_rebound_by_star_import_witness :
  imports_ok Scenario.cms_shadowed cms_namespace Scenario.cms_shadowed_namespace
    (public Scenario.cms_shadowed_namespace) /\
  cms_namespace !! "vstring" = Some (VBuiltin vstring) /\
  run_file Source.numbered Scenario.cms_shadowed = Raise (AttributeError "vstring").
Proof.
  assert (H : imports_ok Scenario.cms_shadowed cms_namespace
                Scenario.cms_shadowed_namespace
                (public Scenario.cms_shadowed_namespace)).
  { split; [packages_are_found | vm_compute; reflexivity ..]. }
  split; [exact H|]. split; [vm_compute; reflexivity|].
  apply (cms_rebound_by_star_import _ _ _ _ (VStr "cms") H).
  - vm_compute. reflexivity.
  - discriminate.
  - discriminate.
Defined.

(** Importing the same names twice binds what importing them once binds. *)
Lemma imported_twice (g ex : gmap string value) (m : value) :
  ex ∪ <["cms" := m]> (ex ∪ <["cms" := m]> g) = ex ∪ <["cms" := m]> g.
Proof.
  apply map_eq. intros k.
  destruct (ex !! k) as [v|] eqn:Hk.
  - now rewrite !(lookup_union_Some_l _ _ _ _ Hk).
  - rewrite !(lookup_union_r _ _ _ Hk).
    destruct (decide ("cms" = k)) as [<-|Hne].
    + now rewrite !lookup_insert_eq.
    + rewrite !lookup_insert_ne by exact Hne.
      rewrite (lookup_union_r _ _ _ Hk). now rewrite lookup_insert_ne.
Qed.

(** Running the file a second time, in the state the first run leaves,
    succeeds and changes nothing. *)
Theorem run_twice (st : state) (l : loc) (attrs : gmap string value) :
  importable st l attrs ->
  exists st' : state,
    run_file Source.numbered st = Ok st' /\
    run_file Source.numbered st' = Ok st'.
Proof.
  intros H.
  destruct (run_source st l attrs H) as [ns [ex [Hf [Hex [Hx [Hcms Hrun]]]]]].
  set (st' := final_state st ex l attrs Config.geomXMLFiles) in *.
  exists st'. split; [exact Hrun|].
  assert (H' : importable st' l
                 (<["geomXMLFiles" := VVString Config.geomXMLFiles]> attrs)).
  { destruct H as [Hp Hc Hcfi Hl]. split.
    - exact Hp.
    - exact Hc.
    - exact Hcfi.
    - unfold st', final_state. cbn [heap]. apply lookup_insert_eq. }
  destruct (run_source st' _ _ H') as [ns' [ex' [Hf' [Hex' [_ [_ Hrun']]]]]].
  assert (ns' = ns) as ->
    by (unfold st', final_state in Hf'; cbn [modules] in Hf'; congruence).
  assert (ex' = ex) as -> by congruence.
  rewrite Hrun'. f_equal.
  unfold st', final_state. cbn [globals modules heap].
  now rewrite imported_twice, !insert_insert_eq.
Qed.

Lemma run_twice_witness :
  importable (initial_all []) 1%positive (default_attrs []) /\
  exists st' : state,
    run_file Source.numbered (initial_all []) = Ok st' /\
    run_file Source.numbered st' = Ok st'.
Proof.
  assert (H : importable (initial_all []) 1%positive (default_attrs [])).
  { initial_all_is_importable. }
  split; [exact H|].
  exact (run_twice _ _ _ H).
Defined.

(** The star import brings in only bindings the module has. *)
Lemma exported_lookup (ns : gmap string value) (names : list string)
    (ex : gmap string value) (id : string) (v : value) :
  exported ns names = Ok ex -> ex !! id = Some v -> ns !! id = Some v.
Proof.
  revert ex. induction names as [|n names IH]; intros ex Hex Hv.
  - injection Hex as <-. now rewrite lookup_empty in Hv.
  - cbn [exported] in Hex. destruct (ns !! n) as [w|] eqn:Hn; [|discriminate].
    destruct (exported ns names) as [ex0|]; [|discriminate].
    cbn [bind] in Hex. injection Hex as <-.
    destruct (decide (n = id)) as [->|Hne].
    + rewrite lookup_insert_eq in Hv. congruence.
    + rewrite lookup_insert_ne in Hv by exact Hne. now apply (IH ex0).
Qed.

Lemma star_exports_lookup (ns ex : gmap string value) (id : string) (v : value) :
  star_exports ns = Ok ex -> ex !! id = Some v -> ns !! id = Some v.
Proof.
  unfold star_exports. destruct (ns !! "__all__") as [a|].
  - destruct (names_of a) as [names|]; [|discriminate]. cbn [bind].
    apply exported_lookup.
  - intros [= <-] Hv. unfold public in Hv.
    now apply map_lookup_filter_Some in Hv as [Hv _].
Qed.

(** The assignment changes the object that the geometry module holds, not a
    copy of it: after the run the module table is as it was, the module still
    binds [XMLIdealGeometryESSource] to the same object, and that object read
    through the module, or through any other reference to it, has the new
    list. *)
Theorem assignment_visible_through_module
    (st : state) (l : loc) (attrs : gmap string value) :
  importable st l attrs ->
  exists st' : state,
    run_file Source.numbered st = Ok st' /\
    getattr st (VModule "Geometry.CMSCommonData.cmsIdealGeometryXML_cfi")
      "XMLIdealGeometryESSource" = Ok (VObject l) /\
    getattr st' (VModule "Geometry.CMSCommonData.cmsIdealGeometryXML_cfi")
      "XMLIdealGeometryESSource" = Ok (VObject l) /\
    getattr st' (VObject l) "geomXMLFiles" = Ok (VVString Config.geomXMLFiles).
Proof.
  intros H.
  destruct (run_source st l attrs H) as [ns [ex [Hf [Hex [Hx [_ Hrun]]]]]].
  exists (final_state st ex l attrs Config.geomXMLFiles).
  split; [exact Hrun|].
  pose proof (star_exports_lookup _ _ _ _ Hex Hx) as Hns.
  clear Hrun. unfold final_state. cbn [getattr modules heap]. rewrite Hf, Hns.
  rewrite !lookup_insert_eq. repeat split.
Qed.

Lemma assignment_visible_through_module_witness :
  importable (initial_all ["Geometry/CMSCommonData/data/materials.xml"])
    1%positive (default_attrs ["Geometry/CMSCommonData/data/materials.xml"]) /\
  exists st' : state,
    run_file Source.numbered
      (initial_all ["Geometry/CMSCommonData/data/materials.xml"]) = Ok st' /\
    getattr (initial_all ["Geometry/CMSCommonData/data/materials.xml"])
      (VModule "Geometry.CMSCommonData.cmsIdealGeometryXML_cfi")
      "XMLIdealGeometryESSource" = Ok (VObject 1%positive) /\
    getattr st' (VModule "Geometry.CMSCommonData.cmsIdealGeometryXML_cfi")
      "XMLIdealGeometryESSource" = Ok (VObject 1%positive) /\
    getattr st' (VObject 1%positive) "geomXMLFiles"
      = Ok (VVString Config.geomXMLFiles).
Proof.
  assert (H : importable
                (initial_all ["Geometry/CMSCommonData/data/materials.xml"])
                1%positive
                (default_attrs ["Geometry/CMSCommonData/data/materials.xml"])).
  { initial_all_is_importable. }
  split; [exact H|].
  exact (assignment_visible_through_module _ _ _ H).
Defined.

End Runs.

(** ** File names *)

(** No file name occurs twice in the list, not even under two directories:
    an entry with the long-barrel prefix stands in place of the standard file
    of that name, not beside it. *)
Theorem file_names_are_distinct :
  NoDup (map Path.basename Config.geomXMLFiles) /\
  forall (i j : nat) (a b : string),
    Config.geomXMLFiles !! i = Some a ->
    Config.geomXMLFiles !! j = Some b ->
    Path.basename a = Path.basename b ->
    i = j.
Proof.
  assert (H : NoDup (map Path.basename Config.geomXMLFiles)).
  { apply (bool_decide_unpack _). vm_compute. exact I. }
  split; [exact H|].
  intros i j a b Ha Hb Hab.
  apply (proj1 (NoDup_alt _) H i j (Path.basename a)).
  - rewrite lookup_map, Ha. reflexivity.
  - rewrite lookup_map, Hb, Hab. reflexivity.
Qed.
